(** * bdn::java::TypeConversion

    A shallow embedding of
    [framework/foundation/platforms/android/include/bdn/java/TypeConversion.h]:
    the table of template specialisations that converts between native C++
    values and their JNI counterparts, and the two free convenience
    functions in front of it.

    Integers are [Z] with the wrap-around of each conversion written out:
    a [return] or a cast converts its operand to the integer type it is
    declared to give, which is [cast] to the kind of that type.
    The operations of the collaborating classes ([Reference], [bdn::Color],
    the [JObject] wrappers) and of the Java runtime are not part of the
    header: a function body that reaches them is a program in a small
    free monad whose nodes are exactly those calls. *)

From Stdlib Require Import ZArith String List Bool Lia.
From Stdlib Require Import Floats.SpecFloat.
Import ListNotations.

Set Implicit Arguments.

Local Open Scope string_scope.
Local Open Scope Z_scope.

(** ** Fixed-width integers *)

Inductive int_kind : Type :=
| Signed (bits : Z)
| Unsigned (bits : Z).

Definition in_range (k : int_kind) (z : Z) : bool :=
  match k with
  | Signed w => (- 2 ^ (w - 1) <=? z) && (z <? 2 ^ (w - 1))
  | Unsigned w => (0 <=? z) && (z <? 2 ^ w)
  end.

(** Conversion of an integer value to the kind [k] (a C++ cast, or the
    implicit conversion of a [return] to the declared return type):
    the value modulo 2^bits, read as signed or unsigned. *)
Definition cast (k : int_kind) (z : Z) : Z :=
  match k with
  | Signed w => (z + 2 ^ (w - 1)) mod 2 ^ w - 2 ^ (w - 1)
  | Unsigned w => z mod 2 ^ w
  end.

Arguments in_range : simpl never.
Arguments cast : simpl never.

(** The native integer types of the Android ABIs. *)
Definition c_int : int_kind := Signed 32.
Definition c_short : int_kind := Signed 16.
Definition c_int64_t : int_kind := Signed 64.
Definition c_int8_t : int_kind := Signed 8.
Definition c_char32_t : int_kind := Unsigned 32.

(** The integer types and constants of <jni.h>. *)
Definition k_jint : int_kind := Signed 32.
Definition k_jshort : int_kind := Signed 16.
Definition k_jlong : int_kind := Signed 64.
Definition k_jbyte : int_kind := Signed 8.
Definition k_jchar : int_kind := Unsigned 16.
Definition k_jboolean : int_kind := Unsigned 8.

Definition JNI_FALSE : Z := 0.
Definition JNI_TRUE : Z := 1.

(** IEEE 754 values: [double] is binary64, [float] is binary32. *)
Definition is_double (x : spec_float) : bool := valid_binary 53 1024 x.
Definition is_float (x : spec_float) : bool := valid_binary 24 128 x.

(** A [jobject] value is an opaque handle handed out by the runtime. *)
Definition objref : Type := N.

(** ** The types of the table *)

(** The Java side: the types that occur as [JavaType]. *)
Inductive java_type : Type :=
| jobject | jint | jshort | jdouble | jfloat | jlong | jchar | jbyte
| jboolean.

Definition jval (J : java_type) : Type :=
  match J with
  | jobject => objref
  | jdouble | jfloat => spec_float
  | jint | jshort | jlong | jchar | jbyte | jboolean => Z
  end.

Definition jval_ok (J : java_type) : jval J -> bool :=
  match J with
  | jobject => fun _ => true
  | jint => in_range k_jint
  | jshort => in_range k_jshort
  | jdouble => is_double
  | jfloat => is_float
  | jlong => in_range k_jlong
  | jchar => in_range k_jchar
  | jbyte => in_range k_jbyte
  | jboolean => in_range k_jboolean
  end.

(** The native side: one constructor per [TypeConversion] that takes a
    value.  [JObject_derived cls] stands for the primary template at a
    wrapper class [cls] derived from [bdn::java::wrapper::JObject]; the
    others are the explicit specialisations.  [TypeConversion<void>] has
    no value and no list and is kept apart (module [TypeConversion_void]). *)
Inductive native_type : Type :=
| JObject_derived (cls : string)
| std_string
| bdn_Color
| cpp_jobject
| cpp_int
| cpp_short
| cpp_double
| cpp_float
| cpp_int64_t
| cpp_char32_t
| cpp_int8_t
| cpp_bool.

Definition native_type_eq_dec (a b : native_type) : {a = b} + {a <> b}.
Proof. decide equality. apply string_dec. Defined.

(** ** External collaborators

    What the header consumes from classes it does not define. *)
Class Collaborators : Type :=
  { (** [bdn::java::Reference] and its accessor [getJObject()] *)
    Reference : Type;
    getJObject : Reference -> objref;
    (** [bdn::Color] with [asIntAlphaFirst()] and [Color::fromIntAlphaFirst] *)
    Color : Type;
    asIntAlphaFirst : Color -> Z;
    fromIntAlphaFirst : Z -> Color;
    (** a wrapper class derived from [JObject]: its constructor from a
        [Reference] and its accessor [getRef_()] *)
    wrapper : string -> Type;
    construct : forall cls, Reference -> wrapper cls;
    getRef_ : forall cls, wrapper cls -> Reference }.

Arguments construct {_} cls _.
Arguments getRef_ {_} [cls] _.

Definition exn : Type := string.

Section Programs.

Context {collab : Collaborators}.

Definition nval (T : native_type) : Type :=
  match T with
  | JObject_derived cls => wrapper cls
  | std_string => string
  | bdn_Color => Color
  | cpp_jobject => objref
  | cpp_double | cpp_float => spec_float
  | cpp_int | cpp_short | cpp_int64_t | cpp_char32_t | cpp_int8_t => Z
  | cpp_bool => bool
  end.

Definition nval_ok (T : native_type) : nval T -> bool :=
  match T with
  | JObject_derived _ => fun _ => true
  | std_string => fun _ => true
  | bdn_Color => fun _ => true
  | cpp_jobject => fun _ => true
  | cpp_int => in_range c_int
  | cpp_short => in_range c_short
  | cpp_double => is_double
  | cpp_float => is_float
  | cpp_int64_t => in_range c_int64_t
  | cpp_char32_t => in_range c_char32_t
  | cpp_int8_t => in_range c_int8_t
  | cpp_bool => fun _ => true
  end.

(** ** Programs over the runtime

    The calls that leave the header: each may change the state of the
    Java runtime and may fail there. *)
Inductive RuntimeE : Type -> Type :=
| GetSignature (cls : string) : RuntimeE string
| ConvertAndDestroyOwnedLocal (j : objref) : RuntimeE Reference
| CreateJString (s : string) (createdJavaObjects : list Reference)
  : RuntimeE (objref * list Reference)
| GetStringFromJava (ref : Reference) : RuntimeE string.

(** A function body: it returns, throws, or calls the runtime and goes on
    with the answer. *)
Inductive Prog (R : Type) : Type :=
| Ret (r : R)
| Throw (e : exn)
| Call (X : Type) (ev : RuntimeE X) (k : X -> Prog R).

Arguments Throw {R} e.
Arguments Call {R X} ev k.

Fixpoint bind {A B : Type} (p : Prog A) (f : A -> Prog B) : Prog B :=
  match p with
  | Ret a => f a
  | Throw e => Throw e
  | Call ev k => Call ev (fun x => bind (k x) f)
  end.

Local Notation "x <- p ;; q" := (bind p (fun x => q))
  (at level 100, p at next level, right associativity).

(** [NativeType::getStaticClass_().getSignature_()] *)
Definition getSignature_ (cls : string) : Prog string :=
  Call (GetSignature cls) (fun s => Ret s).

(** [Reference::convertAndDestroyOwnedLocal] *)
Definition convertAndDestroyOwnedLocal (j : objref) : Prog Reference :=
  Call (ConvertAndDestroyOwnedLocal j) (fun r => Ret r).

(** [TypeConversionBase_::_createJString]: the list is passed by reference,
    so the call answers with the handle and the list as it left it. *)
Definition _createJString (s : string) (createdJavaObjects : list Reference)
  : Prog (objref * list Reference) :=
  Call (CreateJString s createdJavaObjects) (fun r => Ret r).

(** [TypeConversionBase_::_getStringFromJava] *)
Definition _getStringFromJava (ref : Reference) : Prog string :=
  Call (GetStringFromJava ref) (fun s => Ret s).

(** ** Running a program against a runtime

    A runtime with state [RT] answers each call with a value or with a
    failure, and moves to a next state. *)
Definition Handler (RT : Type) : Type :=
  forall X : Type, RuntimeE X -> RT -> (exn + X) * RT.

Fixpoint run {RT R : Type} (h : Handler RT) (p : Prog R) (rt : RT)
  : (exn + R) * RT :=
  match p with
  | Ret r => (inr r, rt)
  | Throw e => (inl e, rt)
  | Call ev k =>
      match h _ ev rt with
      | (inl e, rt') => (inl e, rt')
      | (inr x, rt') => run h (k x) rt'
      end
  end.

(** The program has no [Throw] of its own, whatever the runtime answers. *)
Fixpoint throw_free {R : Type} (p : Prog R) : Prop :=
  match p with
  | Ret _ => True
  | Throw _ => False
  | Call ev k => forall x, throw_free (k x)
  end.

(** The runtime calls a program can make. *)
Inductive calls {R : Type} : Prog R -> forall X, RuntimeE X -> Prop :=
| calls_here X (ev : RuntimeE X) k : calls (Call ev k) ev
| calls_later X (ev : RuntimeE X) k x Y (ev' : RuntimeE Y) :
    calls (k x) ev' -> calls (Call ev k) ev'.

(** A runtime that never fails. *)
Definition handler_total {RT : Type} (h : Handler RT) : Prop :=
  forall X (ev : RuntimeE X) rt, exists x rt', h X ev rt = (inr x, rt').

(** ** Function-local statics

    [static std::string sig(init); return sig;]: the variable is
    initialised the first time control passes its declaration and a copy
    is returned.  The cell is [None] before that. *)
Definition static_local (cell : option string) (init : Prog string)
  : Prog (string * option string) :=
  match cell with
  | Some sig => Ret (sig, Some sig)
  | None => sig <- init ;; Ret (sig, Some sig)
  end.

End Programs.

Notation "x <- p ;; q" := (bind p (fun x => q))
  (at level 100, p at next level, right associativity).

(** ** The primary template: [TypeConversion<NATIVE_TYPE>] for a wrapper
    class [cls] derived from [JObject] *)
Module TypeConversion_primary.
Section Spec.
Context {collab : Collaborators}.
Variable cls : string.

Definition JavaType : java_type := jobject.
Definition NativeType : native_type := JObject_derived cls.

Definition getJavaSignature (cell : option string)
  : Prog (string * option string) :=
  static_local cell (getSignature_ cls).

Definition nativeToJava (arg : nval NativeType)
    (createdJavaObjects : list Reference)
  : Prog (jval JavaType * list Reference) :=
  Ret (getJObject (getRef_ arg), createdJavaObjects).

Definition takeOwnershipOfJavaValueAndConvertToNative (arg : jval JavaType)
  : Prog (nval NativeType) :=
  ref <- convertAndDestroyOwnedLocal arg ;; Ret (construct cls ref).
End Spec.
End TypeConversion_primary.

Module TypeConversion_string.
Section Spec.
Context {collab : Collaborators}.

Definition JavaType : java_type := jobject.
Definition NativeType : native_type := std_string.

Definition getJavaSignature (cell : option string)
  : Prog (string * option string) :=
  static_local cell (Ret "Ljava/lang/String;").

Definition nativeToJava (arg : nval NativeType)
    (createdJavaObjects : list Reference)
  : Prog (jval JavaType * list Reference) :=
  _createJString arg createdJavaObjects.

Definition takeOwnershipOfJavaValueAndConvertToNative (arg : jval JavaType)
  : Prog (nval NativeType) :=
  ref <- convertAndDestroyOwnedLocal arg ;; _getStringFromJava ref.
End Spec.
End TypeConversion_string.

Module TypeConversion_Color.
Section Spec.
Context {collab : Collaborators}.

Definition JavaType : java_type := jint.
Definition NativeType : native_type := bdn_Color.

Definition getJavaSignature (cell : option string)
  : Prog (string * option string) :=
  static_local cell (Ret "I").

Definition nativeToJava (arg : nval NativeType)
    (createdJavaObjects : list Reference)
  : Prog (jval JavaType * list Reference) :=
  Ret (cast k_jint (asIntAlphaFirst arg), createdJavaObjects).

Definition takeOwnershipOfJavaValueAndConvertToNative (arg : jval JavaType)
  : Prog (nval NativeType) :=
  Ret (fromIntAlphaFirst arg).
End Spec.
End TypeConversion_Color.

Module TypeConversion_jobject.
Section Spec.
Context {collab : Collaborators}.

Definition JavaType : java_type := jobject.
Definition NativeType : native_type := cpp_jobject.

Definition getJavaSignature (cell : option string)
  : Prog (string * option string) :=
  static_local cell (Ret "Ljava/lang/Object;").

Definition nativeToJava (arg : nval NativeType)
    (createdJavaObjects : list Reference)
  : Prog (jval JavaType * list Reference) :=
  Ret (arg, createdJavaObjects).

Definition takeOwnershipOfJavaValueAndConvertToNative (arg : jval JavaType)
  : Prog (nval NativeType) :=
  Ret arg.
End Spec.
End TypeConversion_jobject.

Module TypeConversion_int.
Section Spec.
Context {collab : Collaborators}.

Definition JavaType : java_type := jint.
Definition NativeType : native_type := cpp_int.

Definition getJavaSignature (cell : option string)
  : Prog (string * option string) :=
  static_local cell (Ret "I").

(** [return arg;] as a [jint], and below as an [int]; the list is not
    used. *)
Definition nativeToJava (arg : nval NativeType)
    (createdJavaObjects : list Reference)
  : Prog (jval JavaType * list Reference) :=
  Ret (cast k_jint arg, createdJavaObjects).

Definition takeOwnershipOfJavaValueAndConvertToNative (arg : jval JavaType)
  : Prog (nval NativeType) :=
  Ret (cast c_int arg).
End Spec.
End TypeConversion_int.

Module TypeConversion_short.
Section Spec.
Context {collab : Collaborators}.

Definition JavaType : java_type := jshort.
Definition NativeType : native_type := cpp_short.

Definition getJavaSignature (cell : option string)
  : Prog (string * option string) :=
  static_local cell (Ret "S").

Definition nativeToJava (arg : nval NativeType)
    (createdJavaObjects : list Reference)
  : Prog (jval JavaType * list Reference) :=
  Ret (cast k_jshort arg, createdJavaObjects).

Definition takeOwnershipOfJavaValueAndConvertToNative (arg : jval JavaType)
  : Prog (nval NativeType) :=
  Ret (cast c_short arg).
End Spec.
End TypeConversion_short.

Module TypeConversion_double.
Section Spec.
Context {collab : Collaborators}.

Definition JavaType : java_type := jdouble.
Definition NativeType : native_type := cpp_double.

Definition getJavaSignature (cell : option string)
  : Prog (string * option string) :=
  static_local cell (Ret "D").

Definition nativeToJava (arg : nval NativeType)
    (createdJavaObjects : list Reference)
  : Prog (jval JavaType * list Reference) :=
  Ret (arg, createdJavaObjects).

Definition takeOwnershipOfJavaValueAndConvertToNative (arg : jval JavaType)
  : Prog (nval NativeType) :=
  Ret arg.
End Spec.
End TypeConversion_double.

Module TypeConversion_float.
Section Spec.
Context {collab : Collaborators}.

Definition JavaType : java_type := jfloat.
Definition NativeType : native_type := cpp_float.

Definition getJavaSignature (cell : option string)
  : Prog (string * option string) :=
  static_local cell (Ret "F").

Definition nativeToJava (arg : nval NativeType)
    (createdJavaObjects : list Reference)
  : Prog (jval JavaType * list Reference) :=
  Ret (arg, createdJavaObjects).

Definition takeOwnershipOfJavaValueAndConvertToNative (arg : jval JavaType)
  : Prog (nval NativeType) :=
  Ret arg.
End Spec.
End TypeConversion_float.

Module TypeConversion_int64_t.
Section Spec.
Context {collab : Collaborators}.

Definition JavaType : java_type := jlong.
Definition NativeType : native_type := cpp_int64_t.

Definition getJavaSignature (cell : option string)
  : Prog (string * option string) :=
  static_local cell (Ret "J").

Definition nativeToJava (arg : nval NativeType)
    (createdJavaObjects : list Reference)
  : Prog (jval JavaType * list Reference) :=
  Ret (cast k_jlong arg, createdJavaObjects).

Definition takeOwnershipOfJavaValueAndConvertToNative (arg : jval JavaType)
  : Prog (nval NativeType) :=
  Ret (cast c_int64_t arg).
End Spec.
End TypeConversion_int64_t.

Module TypeConversion_char32_t.
Section Spec.
Context {collab : Collaborators}.

Definition JavaType : java_type := jchar.
Definition NativeType : native_type := cpp_char32_t.

Definition getJavaSignature (cell : option string)
  : Prog (string * option string) :=
  static_local cell (Ret "C").

(** [return (jchar)arg;] *)
Definition nativeToJava (arg : nval NativeType)
    (createdJavaObjects : list Reference)
  : Prog (jval JavaType * list Reference) :=
  Ret (cast k_jchar arg, createdJavaObjects).

Definition takeOwnershipOfJavaValueAndConvertToNative (arg : jval JavaType)
  : Prog (nval NativeType) :=
  Ret (cast c_char32_t arg).
End Spec.
End TypeConversion_char32_t.

Module TypeConversion_int8_t.
Section Spec.
Context {collab : Collaborators}.

Definition JavaType : java_type := jbyte.
Definition NativeType : native_type := cpp_int8_t.

Definition getJavaSignature (cell : option string)
  : Prog (string * option string) :=
  static_local cell (Ret "B").

Definition nativeToJava (arg : nval NativeType)
    (createdJavaObjects : list Reference)
  : Prog (jval JavaType * list Reference) :=
  Ret (cast k_jbyte arg, createdJavaObjects).

Definition takeOwnershipOfJavaValueAndConvertToNative (arg : jval JavaType)
  : Prog (nval NativeType) :=
  Ret (cast c_int8_t arg).
End Spec.
End TypeConversion_int8_t.

Module TypeConversion_bool.
Section Spec.
Context {collab : Collaborators}.

Definition JavaType : java_type := jboolean.
Definition NativeType : native_type := cpp_bool.

Definition getJavaSignature (cell : option string)
  : Prog (string * option string) :=
  static_local cell (Ret "Z").

(** [return (jboolean)(arg ? JNI_TRUE : JNI_FALSE);] *)
Definition nativeToJava (arg : nval NativeType)
    (createdJavaObjects : list Reference)
  : Prog (jval JavaType * list Reference) :=
  Ret (cast k_jboolean (if arg then JNI_TRUE else JNI_FALSE),
       createdJavaObjects).

(** [return arg != JNI_FALSE;] *)
Definition takeOwnershipOfJavaValueAndConvertToNative (arg : jval JavaType)
  : Prog (nval NativeType) :=
  Ret (negb (arg =? JNI_FALSE)).
End Spec.
End TypeConversion_bool.

(** [TypeConversion<void>]: both types are [void]; the two conversions
    take no argument and have an empty body. *)
Module TypeConversion_void.
Section Spec.
Context {collab : Collaborators}.

Definition getJavaSignature (cell : option string)
  : Prog (string * option string) :=
  static_local cell (Ret "V").

Definition nativeToJava : Prog unit := Ret tt.

Definition takeOwnershipOfJavaValueAndConvertToNative : Prog unit := Ret tt.
End Spec.
End TypeConversion_void.

(** ** The statics of the translation unit

    Every [getJavaSignature] has a function-local static of its own: one
    cell per instantiation of the template, and one for [void]. *)
Record Statics : Type :=
  { sig_cell : native_type -> option string;
    sig_cell_void : option string }.

Definition statics_init : Statics :=
  {| sig_cell := fun _ => None; sig_cell_void := None |}.

Definition set_sig_cell (st : Statics) (T : native_type) (c : option string)
  : Statics :=
  {| sig_cell := fun T' => if native_type_eq_dec T T' then c else sig_cell st T';
     sig_cell_void := sig_cell_void st |}.

Definition set_sig_cell_void (st : Statics) (c : option string) : Statics :=
  {| sig_cell := sig_cell st; sig_cell_void := c |}.

(** ** The table: [TypeConversion<T>] selected by [T] *)
Module TypeConversion.
Section Table.
Context {collab : Collaborators}.

Definition JavaType (T : native_type) : java_type :=
  match T with
  | JObject_derived cls => TypeConversion_primary.JavaType
  | std_string => TypeConversion_string.JavaType
  | bdn_Color => TypeConversion_Color.JavaType
  | cpp_jobject => TypeConversion_jobject.JavaType
  | cpp_int => TypeConversion_int.JavaType
  | cpp_short => TypeConversion_short.JavaType
  | cpp_double => TypeConversion_double.JavaType
  | cpp_float => TypeConversion_float.JavaType
  | cpp_int64_t => TypeConversion_int64_t.JavaType
  | cpp_char32_t => TypeConversion_char32_t.JavaType
  | cpp_int8_t => TypeConversion_int8_t.JavaType
  | cpp_bool => TypeConversion_bool.JavaType
  end.

Definition nativeToJava (T : native_type)
  : nval T -> list Reference -> Prog (jval (JavaType T) * list Reference) :=
  match T with
  | JObject_derived cls => TypeConversion_primary.nativeToJava cls
  | std_string => TypeConversion_string.nativeToJava
  | bdn_Color => TypeConversion_Color.nativeToJava
  | cpp_jobject => TypeConversion_jobject.nativeToJava
  | cpp_int => TypeConversion_int.nativeToJava
  | cpp_short => TypeConversion_short.nativeToJava
  | cpp_double => TypeConversion_double.nativeToJava
  | cpp_float => TypeConversion_float.nativeToJava
  | cpp_int64_t => TypeConversion_int64_t.nativeToJava
  | cpp_char32_t => TypeConversion_char32_t.nativeToJava
  | cpp_int8_t => TypeConversion_int8_t.nativeToJava
  | cpp_bool => TypeConversion_bool.nativeToJava
  end.

Definition takeOwnershipOfJavaValueAndConvertToNative (T : native_type)
  : jval (JavaType T) -> Prog (nval T) :=
  match T with
  | JObject_derived cls =>
      TypeConversion_primary.takeOwnershipOfJavaValueAndConvertToNative cls
  | std_string =>
      TypeConversion_string.takeOwnershipOfJavaValueAndConvertToNative
  | bdn_Color =>
      TypeConversion_Color.takeOwnershipOfJavaValueAndConvertToNative
  | cpp_jobject =>
      TypeConversion_jobject.takeOwnershipOfJavaValueAndConvertToNative
  | cpp_int => TypeConversion_int.takeOwnershipOfJavaValueAndConvertToNative
  | cpp_short =>
      TypeConversion_short.takeOwnershipOfJavaValueAndConvertToNative
  | cpp_double =>
      TypeConversion_double.takeOwnershipOfJavaValueAndConvertToNative
  | cpp_float =>
      TypeConversion_float.takeOwnershipOfJavaValueAndConvertToNative
  | cpp_int64_t =>
      TypeConversion_int64_t.takeOwnershipOfJavaValueAndConvertToNative
  | cpp_char32_t =>
      TypeConversion_char32_t.takeOwnershipOfJavaValueAndConvertToNative
  | cpp_int8_t =>
      TypeConversion_int8_t.takeOwnershipOfJavaValueAndConvertToNative
  | cpp_bool =>
      TypeConversion_bool.takeOwnershipOfJavaValueAndConvertToNative
  end.

Definition getJavaSignature_cell (T : native_type)
  : option string -> Prog (string * option string) :=
  match T with
  | JObject_derived cls => TypeConversion_primary.getJavaSignature cls
  | std_string => TypeConversion_string.getJavaSignature
  | bdn_Color => TypeConversion_Color.getJavaSignature
  | cpp_jobject => TypeConversion_jobject.getJavaSignature
  | cpp_int => TypeConversion_int.getJavaSignature
  | cpp_short => TypeConversion_short.getJavaSignature
  | cpp_double => TypeConversion_double.getJavaSignature
  | cpp_float => TypeConversion_float.getJavaSignature
  | cpp_int64_t => TypeConversion_int64_t.getJavaSignature
  | cpp_char32_t => TypeConversion_char32_t.getJavaSignature
  | cpp_int8_t => TypeConversion_int8_t.getJavaSignature
  | cpp_bool => TypeConversion_bool.getJavaSignature
  end.

(** A call of [TypeConversion<T>::getJavaSignature()] in the statics
    [st]: it works on the cell of [T] and leaves the others alone. *)
Definition getJavaSignature (T : native_type) (st : Statics)
  : Prog (string * Statics) :=
  r <- getJavaSignature_cell T (sig_cell st T) ;;
  Ret (fst r, set_sig_cell st T (snd r)).

(** A call of [TypeConversion<void>::getJavaSignature()]. *)
Definition getJavaSignature_void (st : Statics) : Prog (string * Statics) :=
  r <- TypeConversion_void.getJavaSignature (sig_cell_void st) ;;
  Ret (fst r, set_sig_cell_void st (snd r)).
End Table.
End TypeConversion.

(** ** The free convenience functions *)
Section Free.
Context {collab : Collaborators}.

(** [static_cast<typename std::decay<NativeType>::type>(nativeValue)]
    at a type of the table, which is its own decayed type: the value
    converted to the type it already has. *)
Definition static_cast_decay (T : native_type) : nval T -> nval T :=
  match T with
  | cpp_int => cast c_int
  | cpp_short => cast c_short
  | cpp_int64_t => cast c_int64_t
  | cpp_char32_t => cast c_char32_t
  | cpp_int8_t => cast c_int8_t
  | _ => fun v => v
  end.

Definition nativeToJava (NativeType : native_type)
    (nativeValue : nval NativeType) (createdJavaObjects : list Reference)
  : Prog (jval (TypeConversion.JavaType NativeType) * list Reference) :=
  TypeConversion.nativeToJava NativeType
    (static_cast_decay NativeType nativeValue) createdJavaObjects.

Definition takeOwnershipOfJavaValueAndConvertToNative
    (NativeType : native_type)
    (javaValue : jval (TypeConversion.JavaType NativeType))
  : Prog (nval NativeType) :=
  TypeConversion.takeOwnershipOfJavaValueAndConvertToNative NativeType
    javaValue.
End Free.

(** ** Calls in sequence *)
Section History.
Context {collab : Collaborators}.
Context {RT : Type}.
Variable h : Handler RT.

(** One completed call of some [getJavaSignature], at some state of
    the runtime: what it does to the statics.  (A call that fails in
    the runtime leaves its static uninitialised, so leaves the statics
    as they were.) *)
Inductive sig_step : Statics -> Statics -> Prop :=
| sig_step_type T st rt s st' rt' :
    run h (TypeConversion.getJavaSignature T st) rt = (inr (s, st'), rt') ->
    sig_step st st'
| sig_step_void st rt s st' rt' :
    run h (TypeConversion.getJavaSignature_void st) rt = (inr (s, st'), rt') ->
    sig_step st st'.

(** The statics after any number of such calls, in any order. *)
Inductive sig_steps : Statics -> Statics -> Prop :=
| sig_steps_refl st : sig_steps st st
| sig_steps_step st st' st'' :
    sig_steps st st' -> sig_step st' st'' -> sig_steps st st''.

(** The statics a run of the process can be in. *)
Definition reachable (st : Statics) : Prop := sig_steps statics_init st.

(** The runtime answers the calls of [p] alike from [rt1] and from [rt2]. *)
Fixpoint answers_agree {R : Type} (p : Prog R) (rt1 rt2 : RT) : Prop :=
  match p with
  | Call ev k =>
      match @h _ ev rt1, @h _ ev rt2 with
      | (inr x1, rt1'), (inr x2, rt2') =>
          x1 = x2 /\ answers_agree (k x1) rt1' rt2'
      | (inl e1, _), (inl e2, _) => e1 = e2
      | _, _ => False
      end
  | _ => True
  end.
End History.

(** A cell whose initialiser is a constant holds nothing or that constant. *)
Definition cell_ok {collab : Collaborators}
    (getSig : option string -> Prog (string * option string))
    (c : option string) : Prop :=
  forall s lit, c = Some s -> getSig None = Ret (lit, Some lit) -> s = lit.

Definition statics_ok {collab : Collaborators} (st : Statics) : Prop :=
  (forall T, cell_ok (TypeConversion.getJavaSignature_cell T) (sig_cell st T)) /\
  cell_ok TypeConversion_void.getJavaSignature (sig_cell_void st).

(** Native to Java and back. *)
Definition roundtrip {collab : Collaborators} (T : native_type) (x : nval T)
    (createdJavaObjects : list Reference) : Prog (nval T) :=
  r <- TypeConversion.nativeToJava T x createdJavaObjects ;;
  TypeConversion.takeOwnershipOfJavaValueAndConvertToNative T (fst r).

(** Java to native and back. *)
Definition roundtrip_java {collab : Collaborators} (T : native_type)
    (j : jval (TypeConversion.JavaType T))
    (createdJavaObjects : list Reference)
  : Prog (jval (TypeConversion.JavaType T) * list Reference) :=
  x <- TypeConversion.takeOwnershipOfJavaValueAndConvertToNative T j ;;
  TypeConversion.nativeToJava T x createdJavaObjects.

(** ** Which runtime calls a body makes *)
Section Discipline.
Context {collab : Collaborators}.

(** Every runtime call the program can make satisfies [Q]. *)
Fixpoint all_calls {R : Type} (Q : forall X, RuntimeE X -> Prop) (p : Prog R)
  : Prop :=
  match p with
  | Call ev k => Q _ ev /\ forall x, all_calls Q (k x)
  | _ => True
  end.

(** The call is [_createJString(s, l)]. *)
Definition is_createJString (s : string) (l : list Reference)
    (X : Type) (ev : RuntimeE X) : Prop :=
  match ev with
  | CreateJString s' l' => s' = s /\ l' = l
  | _ => False
  end.

(** The call is [Reference::convertAndDestroyOwnedLocal(j)]. *)
Definition is_convertAndDestroy (j : objref) (X : Type) (ev : RuntimeE X)
  : Prop :=
  match ev with
  | ConvertAndDestroyOwnedLocal j' => j' = j
  | _ => False
  end.

(** The call is [convertAndDestroyOwnedLocal(j)] or a [_getStringFromJava]. *)
Definition is_convert_or_getString (j : objref) (X : Type) (ev : RuntimeE X)
  : Prop :=
  match ev with
  | ConvertAndDestroyOwnedLocal j' => j' = j
  | GetStringFromJava _ => True
  | _ => False
  end.
End Discipline.

(** ** A runtime to run the conversions on

    Stand-ins for the collaborators, for evaluating the conversions on
    concrete inputs: a reference is its handle, a colour is its ARGB
    word, a wrapper is its reference; the runtime numbers the strings it
    creates and keeps their contents. *)
Module Sim.
Definition collab : Collaborators :=
  {| Reference := objref;
     getJObject := fun r => r;
     Color := Z;
     asIntAlphaFirst := fun c => c;
     fromIntAlphaFirst := fun z => z;
     wrapper := fun _ => objref;
     construct := fun _ r => r;
     getRef_ := fun _ w => w |}.

Record Runtime : Type := { next : N; strings : list (N * string) }.

Definition boot : Runtime := {| next := 1%N; strings := [] |}.

Fixpoint contents (j : N) (l : list (N * string)) : string :=
  match l with
  | [] => ""
  | (j', s) :: l' => if N.eqb j j' then s else contents j l'
  end.

Definition handler : Handler (collab := collab) Runtime :=
  fun X ev =>
    match ev in RuntimeE X return Runtime -> (exn + X) * Runtime with
    | GetSignature cls => fun rt => (inr ("L" ++ cls ++ ";")%string, rt)
    | ConvertAndDestroyOwnedLocal j => fun rt => (inr j, rt)
    | CreateJString s l =>
        fun rt =>
          (inr (next rt, (l ++ [next rt])%list),
           {| next := N.succ (next rt);
              strings := (next rt, s) :: strings rt |})
    | GetStringFromJava ref => fun rt => (inr (contents ref (strings rt)), rt)
    end.

(** The statics after a first [getJavaSignature] for [int], and after a
    further one for the wrapper class of java.lang.Thread. *)
Definition after_int : Statics :=
  set_sig_cell statics_init cpp_int (Some "I"%string).

Definition after_int_and_Thread : Statics :=
  set_sig_cell after_int (JObject_derived "java/lang/Thread")
    (Some "Ljava/lang/Thread;"%string).

(** A runtime in which every call fails. *)
Definition broken : Handler (collab := collab) Runtime :=
  fun X ev rt => (inl "JNI error", rt).
End Sim.

(** * Properties *)

Unset Implicit Arguments.

(** ** Conversions between integer types *)

Lemma cast_in_range (k : int_kind) (z : Z) :
  0 < match k with Signed w | Unsigned w => w end ->
  in_range k z = true -> cast k z = z.
Proof.
  destruct k as [w | w]; unfold in_range, cast; intros Hw Hr;
    apply andb_prop in Hr as [Hlo Hhi];
    apply Z.leb_le in Hlo; apply Z.ltb_lt in Hhi.
  - replace (2 ^ w) with (2 * 2 ^ (w - 1)).
    + rewrite Z.mod_small; lia.
    + rewrite <- Z.pow_succ_r by lia. f_equal. lia.
  - apply Z.mod_small. lia.
Qed.

Lemma cast_range (k : int_kind) (z : Z) :
  0 < match k with Signed w | Unsigned w => w end ->
  in_range k (cast k z) = true.
Proof.
  destruct k as [w | w]; unfold in_range, cast; intros Hw;
    apply andb_true_intro.
  - assert (H2 : 2 ^ w = 2 * 2 ^ (w - 1)).
    { rewrite <- Z.pow_succ_r by lia. f_equal. lia. }
    assert (Hp : 0 < 2 ^ w) by (apply Z.pow_pos_nonneg; lia).
    pose proof (Z.mod_pos_bound (z + 2 ^ (w - 1)) (2 ^ w) Hp) as Hb.
    split; [apply Z.leb_le | apply Z.ltb_lt]; lia.
  - assert (Hp : 0 < 2 ^ w) by (apply Z.pow_pos_nonneg; lia).
    pose proof (Z.mod_pos_bound z (2 ^ w) Hp) as Hb.
    split; [apply Z.leb_le | apply Z.ltb_lt]; lia.
Qed.

(** Widening keeps the value: a [jchar] is a [char32_t]. *)
Lemma jchar_in_char32_t (j : Z) :
  in_range k_jchar j = true -> in_range c_char32_t j = true.
Proof.
  unfold in_range, k_jchar, c_char32_t. intros Hr.
  apply andb_prop in Hr as [Hlo Hhi].
  apply Z.leb_le in Hlo; apply Z.ltb_lt in Hhi.
  apply andb_true_intro; split; [apply Z.leb_le | apply Z.ltb_lt]; lia.
Qed.

Ltac kinds :=
  unfold c_int, c_short, c_int64_t, c_int8_t, c_char32_t,
    k_jint, k_jshort, k_jlong, k_jbyte, k_jchar, k_jboolean in *.

Ltac cast_id :=
  repeat match goal with
    | |- context [cast ?k ?z] =>
        rewrite (@cast_in_range k z) by (kinds; simpl; (lia || assumption))
    end.

(** ** Programs and runs *)
Section ProgramFacts.
Context {collab : Collaborators}.

(** Against a runtime that never fails, a program without [Throw]
    returns. *)
Lemma run_total {RT R : Type} (h : Handler RT) (p : Prog R) :
  handler_total h -> throw_free p ->
  forall rt, exists r rt', run h p rt = (inr r, rt').
Proof.
  intros Hh. induction p as [r | e | X ev k IH]; simpl; intros Hp rt.
  - eauto.
  - contradiction.
  - destruct (Hh X ev rt) as (x & rt1 & Hx). rewrite Hx. apply IH, Hp.
Qed.

(** A failure of a program without [Throw] is the failure of one of
    the runtime calls it makes. *)
Lemma run_failure_origin {RT R : Type} (h : Handler RT) (p : Prog R) :
  throw_free p ->
  forall rt e rt',
    run h p rt = (inl e, rt') ->
    exists X (ev : RuntimeE X) rt0, calls p ev /\ h X ev rt0 = (inl e, rt').
Proof.
  induction p as [r | e0 | X ev k IH]; simpl; intros Hp rt e rt' Hrun.
  - discriminate.
  - contradiction.
  - destruct (h X ev rt) as [[e1 | x] rt1] eqn:Hh.
    + inversion Hrun; subst. exists X, ev, rt. split; [constructor | exact Hh].
    + destruct (IH x (Hp x) rt1 e rt' Hrun) as (Y & ev' & rt0 & Hc & Hf).
      exists Y, ev', rt0. split; [econstructor; eassumption | exact Hf].
Qed.


Lemma answers_agree_refl {RT R : Type} (h : Handler RT) (p : Prog R) :
  forall rt, answers_agree h p rt rt.
Proof.
  induction p as [r | e | X ev k IH]; simpl; intros rt; auto.
  destruct (h X ev rt) as [[e1 | x1] rt1']; auto.
Qed.
End ProgramFacts.

(** ** Function-local statics *)
Section StaticsFacts.
Context {collab : Collaborators}.
Context {RT : Type}.
Variable h : Handler RT.

Lemma run_bind {A B : Type} (p : Prog A) (f : A -> Prog B) :
  forall rt,
    run h (bind p f) rt =
    match run h p rt with
    | (inl e, rt') => (inl e, rt')
    | (inr a, rt') => run h (f a) rt'
    end.
Proof.
  induction p as [a | e | X ev k IH]; simpl; intros rt; try reflexivity.
  destruct (@h X ev rt) as [[e | x] rt1]; [reflexivity | apply IH].
Qed.

(** A completed pass over a static: the cell is initialised with the
    string returned, an initialised cell is returned as it is, and an
    empty one is filled with what its initialiser gives. *)
Lemma run_static_local (c : option string) (init : Prog string) :
  forall rt s c' rt',
    run h (static_local c init) rt = (inr (s, c'), rt') ->
    c' = Some s /\
    (forall s0, c = Some s0 -> s0 = s) /\
    (c = None -> run h init rt = (inr s, rt')).
Proof.
  intros rt s c' rt'. destruct c as [s0 |]; simpl.
  - intros H; inversion H; subst. repeat split; congruence.
  - rewrite run_bind. destruct (run h init rt) as [[e | s1] rt1]; simpl;
      intros H; inversion H; subst.
    repeat split; congruence.
Qed.

Lemma static_local_const (init : Prog string) (lit : string) :
  static_local None init = Ret (lit, Some lit) -> init = Ret lit.
Proof.
  destruct init as [a | e | X ev k]; simpl; intros H; inversion H.
  reflexivity.
Qed.

Lemma getJavaSignature_cell_static (T : native_type) :
  exists init,
    forall c, TypeConversion.getJavaSignature_cell T c = static_local c init.
Proof. destruct T; eexists; intros c; reflexivity. Qed.

(** The effect of a completed [getJavaSignature] on the statics. *)
Lemma run_getJavaSignature (T : native_type) :
  forall st rt s st' rt',
    run h (TypeConversion.getJavaSignature T st) rt = (inr (s, st'), rt') ->
    st' = set_sig_cell st T (Some s) /\
    (forall s0, sig_cell st T = Some s0 -> s0 = s) /\
    (sig_cell st T = None ->
     forall lit,
       TypeConversion.getJavaSignature_cell T None = Ret (lit, Some lit) ->
       s = lit).
Proof.
  intros st rt s st' rt'. unfold TypeConversion.getJavaSignature.
  destruct (getJavaSignature_cell_static T) as [init Hinit].
  rewrite run_bind, Hinit.
  destruct (run h (static_local (sig_cell st T) init) rt)
    as [[e | [s1 c1]] rt1] eqn:Hrun; simpl; intros H; inversion H; subst.
  apply run_static_local in Hrun as (-> & Hsome & Hnone).
  repeat split; auto.
  intros Hc lit Hlit. rewrite Hinit in Hlit.
  apply static_local_const in Hlit. subst init.
  specialize (Hnone Hc). simpl in Hnone. congruence.
Qed.

Lemma run_getJavaSignature_void :
  forall st rt s st' rt',
    run h (TypeConversion.getJavaSignature_void st) rt = (inr (s, st'), rt') ->
    st' = set_sig_cell_void st (Some s) /\
    (forall s0, sig_cell_void st = Some s0 -> s0 = s) /\
    (sig_cell_void st = None -> s = "V"%string).
Proof.
  intros st rt s st' rt'.
  unfold TypeConversion.getJavaSignature_void,
    TypeConversion_void.getJavaSignature.
  rewrite run_bind.
  destruct (run h (static_local (sig_cell_void st) (Ret "V"%string)) rt)
    as [[e | [s1 c1]] rt1] eqn:Hrun; simpl; intros H; inversion H; subst.
  apply run_static_local in Hrun as (-> & Hsome & Hnone).
  repeat split; auto.
  intros Hc. specialize (Hnone Hc). simpl in Hnone. congruence.
Qed.

Lemma sig_cell_set_same st T c : sig_cell (set_sig_cell st T c) T = c.
Proof.
  simpl. destruct (native_type_eq_dec T T); [reflexivity | contradiction].
Qed.

Lemma sig_cell_set_other st T T' c :
  T <> T' -> sig_cell (set_sig_cell st T c) T' = sig_cell st T'.
Proof.
  intros Hne. simpl.
  destruct (native_type_eq_dec T T'); [contradiction | reflexivity].
Qed.
End StaticsFacts.

Section SignatureFacts.
Context {collab : Collaborators}.
Context {RT : Type}.
Variable h : Handler RT.

Lemma sig_step_ok (st st' : Statics) :
  sig_step h st st' -> statics_ok st -> statics_ok st'.
Proof.
  intros Hstep [Hty Hvoid].
  destruct Hstep as [T st rt s st' rt' Hrun | st rt s st' rt' Hrun].
  - apply run_getJavaSignature in Hrun as (-> & Hsome & Hnone).
    split; [| exact Hvoid].
    intros T0. destruct (native_type_eq_dec T T0) as [<- | Hne].
    + rewrite sig_cell_set_same. intros s1 lit Hs1 Hlit.
      inversion Hs1; subst s1.
      destruct (sig_cell st T) as [s0 |] eqn:Hc.
      * rewrite <- (Hsome s0 eq_refl).
        apply (Hty T s0 lit); [exact Hc | exact Hlit].
      * apply (Hnone eq_refl lit Hlit).
    + rewrite sig_cell_set_other by exact Hne. apply Hty.
  - apply run_getJavaSignature_void in Hrun as (-> & Hsome & Hnone).
    split; [exact Hty |].
    intros s1 lit Hs1 Hlit. simpl in Hs1. inversion Hs1; subst s1.
    destruct (sig_cell_void st) as [s0 |] eqn:Hc.
    + rewrite <- (Hsome s0 eq_refl). apply (Hvoid s0 lit); [reflexivity | exact Hlit].
    + rewrite (Hnone eq_refl). inversion Hlit. reflexivity.
Qed.

Lemma statics_init_ok : statics_ok statics_init.
Proof. split; [intros T |]; intros s lit Hs; discriminate. Qed.

Lemma sig_steps_ok (st st' : Statics) :
  sig_steps h st st' -> statics_ok st -> statics_ok st'.
Proof.
  induction 1 as [| st0 st1 st2 _ IH Hstep]; intros Hok; [exact Hok |].
  eapply sig_step_ok; eauto.
Qed.

Lemma reachable_ok (st : Statics) : reachable h st -> statics_ok st.
Proof. intros Hr. eapply sig_steps_ok; [exact Hr | apply statics_init_ok]. Qed.

(** An initialised static is never written again. *)
Lemma sig_step_keeps_cell (st st' : Statics) (T : native_type) (s : string) :
  sig_step h st st' -> sig_cell st T = Some s -> sig_cell st' T = Some s.
Proof.
  intros Hstep Hc.
  destruct Hstep as [T0 st rt s0 st' rt' Hrun | st rt s0 st' rt' Hrun].
  - apply run_getJavaSignature in Hrun as (-> & Hsome & _).
    destruct (native_type_eq_dec T0 T) as [-> | Hne].
    + rewrite sig_cell_set_same. f_equal. symmetry. apply Hsome, Hc.
    + rewrite sig_cell_set_other by exact Hne. exact Hc.
  - apply run_getJavaSignature_void in Hrun as (-> & _). exact Hc.
Qed.


Lemma sig_steps_keeps_cell (st st' : Statics) (T : native_type) (s : string) :
  sig_steps h st st' -> sig_cell st T = Some s -> sig_cell st' T = Some s.
Proof.
  induction 1 as [| st0 st1 st2 _ IH Hstep]; intros Hc; [exact Hc |].
  eapply sig_step_keeps_cell; eauto.
Qed.


(** Where the initialiser is the constant [lit], the call returns [lit]
    without a call of the runtime. *)
Lemma getJavaSignature_literal (st : Statics) (T : native_type) (lit : string) :
  statics_ok st ->
  TypeConversion.getJavaSignature_cell T None = Ret (lit, Some lit) ->
  TypeConversion.getJavaSignature T st =
    Ret (lit, set_sig_cell st T (Some lit)).
Proof.
  intros [Hty _] Hlit. unfold TypeConversion.getJavaSignature.
  destruct (getJavaSignature_cell_static T) as [init Hinit].
  pose proof Hlit as Hconst. rewrite Hinit in Hconst.
  apply static_local_const in Hconst. subst init.
  rewrite Hinit. destruct (sig_cell st T) as [s |] eqn:Hc; simpl.
  - rewrite (Hty T s lit); [reflexivity | exact Hc | exact Hlit].
  - reflexivity.
Qed.

Lemma getJavaSignature_void_literal (st : Statics) :
  statics_ok st ->
  TypeConversion.getJavaSignature_void st =
    Ret ("V"%string, set_sig_cell_void st (Some "V"%string)).
Proof.
  intros [_ Hvoid]. unfold TypeConversion.getJavaSignature_void,
    TypeConversion_void.getJavaSignature.
  destruct (sig_cell_void st) as [s |] eqn:Hc; simpl.
  - rewrite (Hvoid s "V"%string); reflexivity.
  - reflexivity.
Qed.
End SignatureFacts.

(** ** Signature strings *)

(** C1: in any statics the process can reach, [getJavaSignature()] of each
    specialisation returns the string fixed for its type (int "I", short
    "S", double "D", float "F", int64_t "J", char32_t "C", int8_t "B",
    bool "Z", void "V", bdn::Color "I", std::string "Ljava/lang/String;",
    jobject "Ljava/lang/Object;"), without calling the runtime, and leaves
    that string in its static. *)
Theorem getJavaSignature_fixed_strings {collab : Collaborators} {RT : Type}
    (h : Handler RT) (st : Statics) :
  reachable h st ->
  TypeConversion.getJavaSignature cpp_int st =
    Ret ("I"%string, set_sig_cell st cpp_int (Some "I"%string)) /\
  TypeConversion.getJavaSignature cpp_short st =
    Ret ("S"%string, set_sig_cell st cpp_short (Some "S"%string)) /\
  TypeConversion.getJavaSignature cpp_double st =
    Ret ("D"%string, set_sig_cell st cpp_double (Some "D"%string)) /\
  TypeConversion.getJavaSignature cpp_float st =
    Ret ("F"%string, set_sig_cell st cpp_float (Some "F"%string)) /\
  TypeConversion.getJavaSignature cpp_int64_t st =
    Ret ("J"%string, set_sig_cell st cpp_int64_t (Some "J"%string)) /\
  TypeConversion.getJavaSignature cpp_char32_t st =
    Ret ("C"%string, set_sig_cell st cpp_char32_t (Some "C"%string)) /\
  TypeConversion.getJavaSignature cpp_int8_t st =
    Ret ("B"%string, set_sig_cell st cpp_int8_t (Some "B"%string)) /\
  TypeConversion.getJavaSignature cpp_bool st =
    Ret ("Z"%string, set_sig_cell st cpp_bool (Some "Z"%string)) /\
  TypeConversion.getJavaSignature_void st =
    Ret ("V"%string, set_sig_cell_void st (Some "V"%string)) /\
  TypeConversion.getJavaSignature bdn_Color st =
    Ret ("I"%string, set_sig_cell st bdn_Color (Some "I"%string)) /\
  TypeConversion.getJavaSignature std_string st =
    Ret ("Ljava/lang/String;"%string,
         set_sig_cell st std_string (Some "Ljava/lang/String;"%string)) /\
  TypeConversion.getJavaSignature cpp_jobject st =
    Ret ("Ljava/lang/Object;"%string,
         set_sig_cell st cpp_jobject (Some "Ljava/lang/Object;"%string)).
Proof.
  intros Hreach. apply reachable_ok in Hreach.
  repeat split;
    first [ apply getJavaSignature_void_literal; exact Hreach
          | apply getJavaSignature_literal; [exact Hreach | reflexivity] ].
Qed.

(** The statics after a first call for [int] and one for a wrapper class
    are reachable, and the next call for [int] still answers "I". *)
Lemma getJavaSignature_fixed_strings_witness :
  reachable Sim.handler Sim.after_int_and_Thread /\
  TypeConversion.getJavaSignature (collab := Sim.collab) cpp_int
      Sim.after_int_and_Thread =
    Ret ("I"%string,
         set_sig_cell Sim.after_int_and_Thread cpp_int (Some "I"%string)).
Proof.
  assert (Hreach : reachable Sim.handler Sim.after_int_and_Thread).
  { apply sig_steps_step with (st' := Sim.after_int).
    - apply sig_steps_step with (st' := statics_init).
      + apply sig_steps_refl.
      + apply sig_step_type
          with (T := cpp_int) (rt := Sim.boot) (s := "I"%string)
               (rt' := Sim.boot).
        reflexivity.
    - apply sig_step_type
        with (T := JObject_derived "java/lang/Thread") (rt := Sim.boot)
             (s := "Ljava/lang/Thread;"%string) (rt' := Sim.boot).
      reflexivity. }
  split; [exact Hreach |].
  exact (proj1 (getJavaSignature_fixed_strings Sim.handler _ Hreach)).
Defined.

(** ** Ownership of object handles *)

(** C2, as stated, fails at [TypeConversion<jobject>]: its [JavaType] is
    [jobject], yet the conversion of the handle 7 returns the handle
    itself, is not [convertAndDestroyOwnedLocal(7)] followed by anything,
    makes no call of the runtime and leaves the runtime as it was. *)
Lemma takeOwnership_jobject_not_consumed :
  TypeConversion.JavaType cpp_jobject = jobject /\
  (forall mk : @Reference Sim.collab -> Prog (nval cpp_jobject),
     TypeConversion.takeOwnershipOfJavaValueAndConvertToNative
       (collab := Sim.collab) cpp_jobject 7%N
     <> (ref <- convertAndDestroyOwnedLocal 7%N ;; mk ref)) /\
  ~ calls
      (TypeConversion.takeOwnershipOfJavaValueAndConvertToNative
         (collab := Sim.collab) cpp_jobject 7%N)
      (ConvertAndDestroyOwnedLocal 7%N) /\
  run Sim.handler
    (TypeConversion.takeOwnershipOfJavaValueAndConvertToNative
       (collab := Sim.collab) cpp_jobject 7%N) Sim.boot
  = (inr 7%N, Sim.boot).
Proof.
  split; [reflexivity |]. split; [| split].
  - intros mk. simpl. discriminate.
  - simpl. intros Hc. inversion Hc.
  - reflexivity.
Qed.

(** C2, amended: the specialisations whose [JavaType] is [jobject] are the
    primary template, [std::string] and [jobject].  The first two take
    ownership of the handle: the conversion is
    [Reference::convertAndDestroyOwnedLocal] on the argument, then the
    native value built from that reference (the wrapper's constructor,
    respectively [_getStringFromJava]).  [jobject] returns the handle as
    it is, with no call of the runtime. *)
Theorem takeOwnership_of_object_handles {collab : Collaborators}
    (T : native_type) :
  TypeConversion.JavaType T = jobject ->
  (T = std_string \/ T = cpp_jobject \/ exists cls, T = JObject_derived cls) /\
  (forall cls arg,
     TypeConversion.takeOwnershipOfJavaValueAndConvertToNative
       (JObject_derived cls) arg
     = (ref <- convertAndDestroyOwnedLocal arg ;; Ret (construct cls ref)) /\
     calls
       (TypeConversion.takeOwnershipOfJavaValueAndConvertToNative
          (JObject_derived cls) arg)
       (ConvertAndDestroyOwnedLocal arg)) /\
  (forall arg,
     TypeConversion.takeOwnershipOfJavaValueAndConvertToNative std_string arg
     = (ref <- convertAndDestroyOwnedLocal arg ;; _getStringFromJava ref) /\
     calls
       (TypeConversion.takeOwnershipOfJavaValueAndConvertToNative
          std_string arg)
       (ConvertAndDestroyOwnedLocal arg)) /\
  (forall arg,
     TypeConversion.takeOwnershipOfJavaValueAndConvertToNative cpp_jobject arg
     = Ret arg /\
     forall RT (h : Handler RT) rt,
       run h
         (TypeConversion.takeOwnershipOfJavaValueAndConvertToNative
            cpp_jobject arg) rt
       = (inr arg, rt)).
Proof.
  intros HJ. split.
  - destruct T; try discriminate HJ; eauto.
  - repeat split; constructor.
Qed.

Lemma takeOwnership_of_object_handles_witness :
  TypeConversion.JavaType std_string = jobject /\
  run Sim.handler
    (TypeConversion.takeOwnershipOfJavaValueAndConvertToNative
       (collab := Sim.collab) std_string 1%N)
    {| Sim.next := 2%N; Sim.strings := [(1%N, "boden"%string)] |}
  = (inr "boden"%string,
     {| Sim.next := 2%N; Sim.strings := [(1%N, "boden"%string)] |}).
Proof.
  split; [reflexivity |].
  destruct (takeOwnership_of_object_handles (collab := Sim.collab)
              std_string eq_refl) as (_ & _ & Hstr & _).
  rewrite (proj1 (Hstr 1%N)). reflexivity.
Defined.

(** ** Pass-through conversions *)

(** C3: for [int], [short], [double], [float], [int64_t], [int8_t] and
    [jobject], [nativeToJava] returns its argument (and the list it was
    given) and [takeOwnershipOfJavaValueAndConvertToNative] returns its
    argument, at every value of the type.  The native and the Java type
    of each of these have the same values. *)
Theorem primitive_conversions_pass_through {collab : Collaborators}
    (i s j b : Z) (d f : spec_float) (o : objref) (l : list Reference) :
  nval_ok cpp_int i = true ->
  nval_ok cpp_short s = true ->
  nval_ok cpp_int64_t j = true ->
  nval_ok cpp_int8_t b = true ->
  (TypeConversion.nativeToJava cpp_int i l = Ret (i, l) /\
   TypeConversion.takeOwnershipOfJavaValueAndConvertToNative cpp_int i = Ret i) /\
  (TypeConversion.nativeToJava cpp_short s l = Ret (s, l) /\
   TypeConversion.takeOwnershipOfJavaValueAndConvertToNative cpp_short s = Ret s) /\
  (TypeConversion.nativeToJava cpp_double d l = Ret (d, l) /\
   TypeConversion.takeOwnershipOfJavaValueAndConvertToNative cpp_double d = Ret d) /\
  (TypeConversion.nativeToJava cpp_float f l = Ret (f, l) /\
   TypeConversion.takeOwnershipOfJavaValueAndConvertToNative cpp_float f = Ret f) /\
  (TypeConversion.nativeToJava cpp_int64_t j l = Ret (j, l) /\
   TypeConversion.takeOwnershipOfJavaValueAndConvertToNative cpp_int64_t j = Ret j) /\
  (TypeConversion.nativeToJava cpp_int8_t b l = Ret (b, l) /\
   TypeConversion.takeOwnershipOfJavaValueAndConvertToNative cpp_int8_t b = Ret b) /\
  (TypeConversion.nativeToJava cpp_jobject o l = Ret (o, l) /\
   TypeConversion.takeOwnershipOfJavaValueAndConvertToNative cpp_jobject o = Ret o).
Proof.
  simpl. intros Hi Hs Hj Hb.
  unfold TypeConversion_int.nativeToJava, TypeConversion_short.nativeToJava,
    TypeConversion_int64_t.nativeToJava, TypeConversion_int8_t.nativeToJava,
    TypeConversion_int.takeOwnershipOfJavaValueAndConvertToNative,
    TypeConversion_short.takeOwnershipOfJavaValueAndConvertToNative,
    TypeConversion_int64_t.takeOwnershipOfJavaValueAndConvertToNative,
    TypeConversion_int8_t.takeOwnershipOfJavaValueAndConvertToNative.
  cast_id. repeat split; reflexivity.
Qed.

Lemma primitive_conversions_pass_through_witness :
  TypeConversion.nativeToJava (collab := Sim.collab) cpp_int (-2147483648) [5%N]
  = Ret (-2147483648, [5%N]) /\
  TypeConversion.takeOwnershipOfJavaValueAndConvertToNative
    (collab := Sim.collab) cpp_int8_t 127
  = Ret 127.
Proof.
  destruct (primitive_conversions_pass_through (collab := Sim.collab)
              (-2147483648) (-32768) 9223372036854775807 127
              S754_nan (S754_infinity true) 3%N [5%N]
              eq_refl eq_refl eq_refl eq_refl)
    as ((Hi & _) & _ & _ & _ & _ & (_ & Hb) & _).
  split; [exact Hi | exact Hb].
Defined.

(** ** char32_t *)

(** C4, as stated, fails above the 16 bits of a [jchar]: U+1F600 is a
    [char32_t], and [nativeToJava] returns 0xF600 for it. *)
Lemma char32_t_nativeToJava_truncates :
  nval_ok (collab := Sim.collab) cpp_char32_t 128512 = true /\
  TypeConversion.nativeToJava (collab := Sim.collab) cpp_char32_t 128512 []
  = Ret (62976, []) /\
  TypeConversion.nativeToJava (collab := Sim.collab) cpp_char32_t 128512 []
  <> Ret (128512, []).
Proof.
  split; [reflexivity |]. split; [reflexivity |].
  intros H. inversion H.
Qed.

(** C4, amended: [nativeToJava] for [char32_t] returns the low 16 bits of
    its argument (the cast to [jchar]) and the list it was given, hence
    the argument itself for every value up to 0xFFFF;
    [takeOwnershipOfJavaValueAndConvertToNative] returns every [jchar]
    unchanged. *)
Theorem char32_t_conversion {collab : Collaborators}
    (c j : Z) (l : list Reference) :
  nval_ok cpp_char32_t c = true ->
  jval_ok jchar j = true ->
  TypeConversion.nativeToJava cpp_char32_t c l = Ret (c mod 65536, l) /\
  (c <= 65535 -> TypeConversion.nativeToJava cpp_char32_t c l = Ret (c, l)) /\
  TypeConversion.takeOwnershipOfJavaValueAndConvertToNative cpp_char32_t j
  = Ret j.
Proof.
  simpl. intros Hc Hj.
  unfold TypeConversion_char32_t.nativeToJava,
    TypeConversion_char32_t.takeOwnershipOfJavaValueAndConvertToNative.
  split; [reflexivity |]. split.
  - intros Hle. f_equal. f_equal. unfold cast, k_jchar.
    unfold in_range, c_char32_t in Hc.
    apply andb_prop in Hc as [Hlo _]. apply Z.leb_le in Hlo.
    apply Z.mod_small. change (2 ^ 16) with 65536. lia.
  - f_equal. apply cast_in_range; [reflexivity |].
    apply jchar_in_char32_t, Hj.
Qed.

Lemma char32_t_conversion_witness :
  TypeConversion.nativeToJava (collab := Sim.collab) cpp_char32_t 128512 [2%N]
  = Ret (62976, [2%N]) /\
  TypeConversion.nativeToJava (collab := Sim.collab) cpp_char32_t 8364 [2%N]
  = Ret (8364, [2%N]) /\
  TypeConversion.takeOwnershipOfJavaValueAndConvertToNative
    (collab := Sim.collab) cpp_char32_t 65535
  = Ret 65535.
Proof.
  destruct (char32_t_conversion (collab := Sim.collab) 128512 65535 [2%N]
              eq_refl eq_refl) as (Hhi & _ & Hback).
  destruct (char32_t_conversion (collab := Sim.collab) 8364 65535 [2%N]
              eq_refl eq_refl) as (_ & Hlo & _).
  split; [exact Hhi |]. split; [| exact Hback].
  apply Hlo. lia.
Defined.

(** ** The list of created Java objects *)

(** C5: every specialisation but [std::string] and the primary template
    (so [int], [short], [double], [float], [int64_t], [int8_t], [char32_t],
    [bool], [bdn::Color] and [jobject]) returns from [nativeToJava]
    without a call of the runtime and with the list exactly as it was
    given, for every value and every list. *)
Theorem nativeToJava_leaves_list {collab : Collaborators}
    (T : native_type) (v : nval T) (createdJavaObjects : list Reference) :
  T <> std_string ->
  (forall cls, T <> JObject_derived cls) ->
  In T [cpp_int; cpp_short; cpp_double; cpp_float; cpp_int64_t; cpp_int8_t;
        cpp_char32_t; cpp_bool; bdn_Color; cpp_jobject] /\
  exists java : jval (TypeConversion.JavaType T),
    TypeConversion.nativeToJava T v createdJavaObjects
    = Ret (java, createdJavaObjects).
Proof.
  intros Hstr Hprim.
  destruct T; try (exfalso; first [apply Hstr; reflexivity | eapply Hprim; reflexivity]);
    (split; [simpl; repeat ((left; reflexivity) || right) | eexists; reflexivity]).
Qed.

Lemma nativeToJava_leaves_list_witness :
  exists java,
    TypeConversion.nativeToJava (collab := Sim.collab) bdn_Color 4278255360
      [1%N; 2%N]
    = Ret (java, [1%N; 2%N]).
Proof.
  refine (proj2 (nativeToJava_leaves_list (collab := Sim.collab)
                   bdn_Color 4278255360 [1%N; 2%N] _ _)).
  - discriminate.
  - intros cls. discriminate.
Defined.

(** ** Errors *)

Lemma conversions_throw_free {collab : Collaborators} (T : native_type)
    (v : nval T) (l : list Reference) (j : jval (TypeConversion.JavaType T)) :
  throw_free (TypeConversion.nativeToJava T v l) /\
  throw_free (TypeConversion.takeOwnershipOfJavaValueAndConvertToNative T j).
Proof. destruct T; simpl; auto. Qed.

Lemma Sim_handler_total : handler_total Sim.handler.
Proof. intros X ev rt. destruct ev; simpl; eauto. Qed.

(** C6: no conversion has an error branch of its own: the bodies of
    [nativeToJava] and [takeOwnershipOfJavaValueAndConvertToNative] of every
    specialisation (also of [void]) contain no [throw]; against a runtime
    that answers every call they return a value, for every input; and
    when one fails, the failure is that of a runtime call it made. *)
Theorem conversions_have_no_error_branch {collab : Collaborators} {RT : Type}
    (h : Handler RT) (T : native_type) (v : nval T) (l : list Reference)
    (j : jval (TypeConversion.JavaType T)) :
  handler_total h ->
  (throw_free (TypeConversion.nativeToJava T v l) /\
   throw_free (TypeConversion.takeOwnershipOfJavaValueAndConvertToNative T j) /\
   TypeConversion_void.nativeToJava = Ret tt /\
   TypeConversion_void.takeOwnershipOfJavaValueAndConvertToNative = Ret tt) /\
  (forall rt, exists r rt',
     run h (TypeConversion.nativeToJava T v l) rt = (inr r, rt')) /\
  (forall rt, exists r rt',
     run h (TypeConversion.takeOwnershipOfJavaValueAndConvertToNative T j) rt
     = (inr r, rt')) /\
  (forall RT' (h' : Handler RT') rt e rt',
     run h' (TypeConversion.nativeToJava T v l) rt = (inl e, rt') ->
     exists X (ev : RuntimeE X) rt0,
       calls (TypeConversion.nativeToJava T v l) ev /\
       h' X ev rt0 = (inl e, rt')) /\
  (forall RT' (h' : Handler RT') rt e rt',
     run h' (TypeConversion.takeOwnershipOfJavaValueAndConvertToNative T j) rt
     = (inl e, rt') ->
     exists X (ev : RuntimeE X) rt0,
       calls (TypeConversion.takeOwnershipOfJavaValueAndConvertToNative T j) ev /\
       h' X ev rt0 = (inl e, rt')).
Proof.
  intros Hh. destruct (conversions_throw_free T v l j) as [Hn Ht].
  repeat split; auto.
  - intros rt. apply run_total; assumption.
  - intros rt. apply run_total; assumption.
  - intros RT' h' rt e rt'. apply run_failure_origin, Hn.
  - intros RT' h' rt e rt'. apply run_failure_origin, Ht.
Qed.

Lemma conversions_have_no_error_branch_witness :
  handler_total Sim.handler /\
  (exists r rt',
     run Sim.handler
       (TypeConversion.nativeToJava (collab := Sim.collab) std_string
          "boden"%string []) Sim.boot
     = (inr r, rt')) /\
  (exists r rt',
     run Sim.handler
       (TypeConversion.takeOwnershipOfJavaValueAndConvertToNative
          (collab := Sim.collab) std_string 0%N) Sim.boot
     = (inr r, rt')).
Proof.
  split; [exact Sim_handler_total |].
  destruct (conversions_have_no_error_branch (collab := Sim.collab)
              Sim.handler std_string "boden"%string [] 0%N
              Sim_handler_total) as (_ & Hn & Ht & _).
  split; [apply Hn | apply Ht].
Defined.

(** With a runtime in which every call fails, the [std::string]
    conversion fails with the runtime's error and a pass-through
    conversion is not affected. *)
Example broken_runtime_failure :
  run Sim.broken
    (TypeConversion.nativeToJava (collab := Sim.collab) std_string
       "boden"%string []) Sim.boot
  = (inl "JNI error"%string, Sim.boot) /\
  run Sim.broken
    (TypeConversion.nativeToJava (collab := Sim.collab) cpp_double
       (S754_zero false) []) Sim.boot
  = (inr (S754_zero false, []), Sim.boot).
Proof. split; reflexivity. Qed.

(** ** Determinism *)







(** ** The free functions *)

(** C8: at every type of the table the free [nativeToJava] is
    [TypeConversion<T>::nativeToJava] on the same value and list (the
    same program, so the same result and the same effect on the list),
    and the free [takeOwnershipOfJavaValueAndConvertToNative<T>] is
    [TypeConversion<T>::takeOwnershipOfJavaValueAndConvertToNative]. *)
Theorem free_functions_delegate {collab : Collaborators}
    (T : native_type) (v : nval T) (l : list Reference)
    (j : jval (TypeConversion.JavaType T)) :
  nval_ok T v = true ->
  nativeToJava T v l = TypeConversion.nativeToJava T v l /\
  takeOwnershipOfJavaValueAndConvertToNative T j
  = TypeConversion.takeOwnershipOfJavaValueAndConvertToNative T j.
Proof.
  intros Hv. split; [| reflexivity].
  unfold nativeToJava. f_equal.
  destruct T; try reflexivity; cbv [static_cast_decay];
    (apply cast_in_range; [reflexivity | exact Hv]).
Qed.

Lemma free_functions_delegate_witness :
  nativeToJava (collab := Sim.collab) cpp_short (-32768) [9%N]
  = TypeConversion.nativeToJava (collab := Sim.collab) cpp_short (-32768) [9%N] /\
  run Sim.handler (nativeToJava (collab := Sim.collab) std_string "x"%string [9%N])
    Sim.boot
  = (inr (1%N, [9%N; 1%N]),
     {| Sim.next := 2%N; Sim.strings := [(1%N, "x"%string)] |}).
Proof.
  split.
  - exact (proj1 (free_functions_delegate (collab := Sim.collab) cpp_short
                    (-32768) [9%N] 0 eq_refl)).
  - rewrite (proj1 (free_functions_delegate (collab := Sim.collab) std_string
                      "x"%string [9%N] 0%N eq_refl)).
    reflexivity.
Defined.

(** ** bool *)

(** C9: [nativeToJava] for [bool] maps [true] to [JNI_TRUE] and [false] to
    [JNI_FALSE]; the other direction maps a [jboolean] to [true] exactly
    when it differs from [JNI_FALSE], so every non-zero [jboolean] (2 and
    255 as well as [JNI_TRUE]) converts to [true]. *)
Theorem bool_conversion {collab : Collaborators}
    (l : list Reference) (j : Z) :
  jval_ok jboolean j = true ->
  TypeConversion.nativeToJava cpp_bool true l = Ret (JNI_TRUE, l) /\
  TypeConversion.nativeToJava cpp_bool false l = Ret (JNI_FALSE, l) /\
  (exists b,
     TypeConversion.takeOwnershipOfJavaValueAndConvertToNative cpp_bool j
     = Ret b /\
     (b = true <-> j <> JNI_FALSE)) /\
  (j <> 0 ->
   TypeConversion.takeOwnershipOfJavaValueAndConvertToNative cpp_bool j
   = Ret true).
Proof.
  intros _. split; [reflexivity |]. split; [reflexivity |].
  simpl. unfold TypeConversion_bool.takeOwnershipOfJavaValueAndConvertToNative.
  split.
  - exists (negb (j =? JNI_FALSE)). split; [reflexivity |].
    rewrite negb_true_iff, Z.eqb_neq. tauto.
  - intros Hnz. f_equal. apply negb_true_iff, Z.eqb_neq. exact Hnz.
Qed.

Lemma bool_conversion_witness :
  TypeConversion.takeOwnershipOfJavaValueAndConvertToNative
    (collab := Sim.collab) cpp_bool 2
  = Ret true /\
  TypeConversion.takeOwnershipOfJavaValueAndConvertToNative
    (collab := Sim.collab) cpp_bool 255
  = Ret true.
Proof.
  split.
  - apply (proj2 (proj2 (proj2
      (bool_conversion (collab := Sim.collab) [] 2 eq_refl)))). lia.
  - apply (proj2 (proj2 (proj2
      (bool_conversion (collab := Sim.collab) [] 255 eq_refl)))). lia.
Defined.

(** ** Round trip *)

(** C10: for [int], [short], [double], [float], [int64_t], [int8_t], [bool]
    and [jobject], converting a value of the type to Java and the result
    back gives the value again, whatever the list. *)
Theorem roundtrip_identity {collab : Collaborators}
    (T : native_type) (x : nval T) (l : list Reference) :
  In T [cpp_int; cpp_short; cpp_double; cpp_float; cpp_int64_t; cpp_int8_t;
        cpp_bool; cpp_jobject] ->
  nval_ok T x = true ->
  roundtrip T x l = Ret x.
Proof.
  intros HT Hx. simpl in HT.
  repeat (destruct HT as [<- | HT]); try contradiction;
    unfold roundtrip; simpl in *;
    try reflexivity.
  - unfold TypeConversion_int.takeOwnershipOfJavaValueAndConvertToNative.
    cast_id. reflexivity.
  - unfold TypeConversion_short.takeOwnershipOfJavaValueAndConvertToNative.
    cast_id. reflexivity.
  - unfold TypeConversion_int64_t.takeOwnershipOfJavaValueAndConvertToNative.
    cast_id. reflexivity.
  - unfold TypeConversion_int8_t.takeOwnershipOfJavaValueAndConvertToNative.
    cast_id. reflexivity.
  - destruct x; reflexivity.
Qed.

Lemma roundtrip_identity_witness :
  roundtrip (collab := Sim.collab) cpp_int64_t (-9223372036854775808) [1%N]
  = Ret (-9223372036854775808) /\
  roundtrip (collab := Sim.collab) cpp_bool true [] = Ret true.
Proof.
  split.
  - apply (roundtrip_identity (collab := Sim.collab) cpp_int64_t).
    + simpl. tauto.
    + reflexivity.
  - apply (roundtrip_identity (collab := Sim.collab) cpp_bool).
    + simpl. tauto.
    + reflexivity.
Defined.

(** * Further properties of the table *)

(** ** Values stay inside their types *)

(** X1: whatever the runtime, a value of the native type converts to a
    value of the declared [JavaType]: an [int] to a [jint], a colour to a
    [jint] whatever word [asIntAlphaFirst] gives, a [char32_t] to a
    16-bit [jchar] even above 0xFFFF, a [bool] to a [jboolean]. *)
Theorem nativeToJava_in_JavaType {collab : Collaborators} {RT : Type}
    (h : Handler RT) (T : native_type) (v : nval T) (l : list Reference) :
  nval_ok T v = true ->
  forall rt java l' rt',
    run h (TypeConversion.nativeToJava T v l) rt = (inr (java, l'), rt') ->
    jval_ok (TypeConversion.JavaType T) java = true.
Proof.
  intros Hv rt java l' rt' Hrun.
  destruct T; simpl in *; try reflexivity;
    inversion Hrun; subst; try exact Hv;
    apply cast_range; reflexivity.
Qed.

Lemma nativeToJava_in_JavaType_witness :
  jval_ok jchar 62976 = true /\
  jval_ok jint (-16711936) = true.
Proof.
  split.
  - apply (nativeToJava_in_JavaType (collab := Sim.collab) Sim.handler
             cpp_char32_t 128512 [] eq_refl Sim.boot 62976 [] Sim.boot).
    reflexivity.
  - apply (nativeToJava_in_JavaType (collab := Sim.collab) Sim.handler
             bdn_Color 4278255360 [] eq_refl Sim.boot (-16711936) [] Sim.boot).
    reflexivity.
Defined.

(** X2: whatever the runtime, a value of the [JavaType] converts back to
    a value of the native type. *)
Theorem takeOwnership_in_NativeType {collab : Collaborators} {RT : Type}
    (h : Handler RT) (T : native_type) (j : jval (TypeConversion.JavaType T)) :
  jval_ok (TypeConversion.JavaType T) j = true ->
  forall rt x rt',
    run h (TypeConversion.takeOwnershipOfJavaValueAndConvertToNative T j) rt
    = (inr x, rt') ->
    nval_ok T x = true.
Proof.
  intros Hj rt x rt' Hrun.
  destruct T; simpl in *; try reflexivity;
    inversion Hrun; subst; try exact Hj;
    apply cast_range; reflexivity.
Qed.

Lemma takeOwnership_in_NativeType_witness :
  nval_ok (collab := Sim.collab) cpp_char32_t 65535 = true.
Proof.
  apply (takeOwnership_in_NativeType (collab := Sim.collab) Sim.handler
           cpp_char32_t 65535 eq_refl Sim.boot 65535 Sim.boot).
  reflexivity.
Defined.

(** ** From Java to native and back *)

(** X3: for [int], [short], [double], [float], [int64_t], [int8_t],
    [char32_t] and [jobject], converting a value of the Java type to
    native and the result to Java again gives the value and the list
    back: in this direction [char32_t] loses nothing. *)
Theorem roundtrip_java_identity {collab : Collaborators}
    (T : native_type) (j : jval (TypeConversion.JavaType T))
    (l : list Reference) :
  In T [cpp_int; cpp_short; cpp_double; cpp_float; cpp_int64_t; cpp_int8_t;
        cpp_char32_t; cpp_jobject] ->
  jval_ok (TypeConversion.JavaType T) j = true ->
  roundtrip_java T j l = Ret (j, l).
Proof.
  intros HT Hj. simpl in HT.
  repeat (destruct HT as [<- | HT]); try contradiction;
    unfold roundtrip_java; simpl in *; try reflexivity.
  - unfold TypeConversion_int.nativeToJava. cast_id. reflexivity.
  - unfold TypeConversion_short.nativeToJava. cast_id. reflexivity.
  - unfold TypeConversion_int64_t.nativeToJava. cast_id. reflexivity.
  - unfold TypeConversion_int8_t.nativeToJava. cast_id. reflexivity.
  - unfold TypeConversion_char32_t.nativeToJava.
    rewrite (cast_in_range c_char32_t j)
      by (try reflexivity; apply jchar_in_char32_t, Hj).
    rewrite (cast_in_range k_jchar j) by (try reflexivity; exact Hj).
    reflexivity.
Qed.

Lemma roundtrip_java_identity_witness :
  roundtrip_java (collab := Sim.collab) cpp_char32_t 65535 [3%N]
  = Ret (65535, [3%N]).
Proof.
  apply (roundtrip_java_identity (collab := Sim.collab) cpp_char32_t).
  - simpl. tauto.
  - reflexivity.
Defined.

(** X4: from Java to native and back, [bool] normalises: every [jboolean]
    but [JNI_FALSE] comes back as [JNI_TRUE], so the value comes back
    unchanged exactly when it is [JNI_FALSE] or [JNI_TRUE]. *)
Theorem roundtrip_java_bool_normalises {collab : Collaborators}
    (j : Z) (l : list Reference) :
  roundtrip_java cpp_bool j l
  = Ret (if j =? JNI_FALSE then JNI_FALSE else JNI_TRUE, l) /\
  (roundtrip_java cpp_bool j l = Ret (j, l) <->
   j = JNI_FALSE \/ j = JNI_TRUE).
Proof.
  assert (Heq : roundtrip_java cpp_bool j l
                = Ret (if j =? JNI_FALSE then JNI_FALSE else JNI_TRUE, l)).
  { unfold roundtrip_java. simpl.
    unfold TypeConversion_bool.nativeToJava.
    destruct (j =? JNI_FALSE); reflexivity. }
  split; [exact Heq |]. rewrite Heq. unfold JNI_FALSE, JNI_TRUE.
  destruct (Z.eqb_spec j 0) as [-> | Hne]; split.
  - intros _. left. reflexivity.
  - intros _. reflexivity.
  - intros H. inversion H. right. reflexivity.
  - intros [H0 | H1]; [contradiction | subst j; reflexivity].
Qed.

(** ** What char32_t loses *)

(** X5: from native to Java and back a [char32_t] keeps its low 16 bits,
    so it comes back unchanged exactly when it is at most 0xFFFF. *)
Theorem roundtrip_char32_t {collab : Collaborators}
    (c : Z) (l : list Reference) :
  nval_ok cpp_char32_t c = true ->
  roundtrip cpp_char32_t c l = Ret (c mod 65536) /\
  (roundtrip cpp_char32_t c l = Ret c <-> c <= 65535).
Proof.
  intros Hc.
  assert (Hmod : 0 <= c mod 65536 < 65536) by (apply Z.mod_pos_bound; lia).
  assert (Heq : roundtrip cpp_char32_t c l = Ret (c mod 65536)).
  { unfold roundtrip. simpl.
    unfold TypeConversion_char32_t.takeOwnershipOfJavaValueAndConvertToNative.
    f_equal. change (cast k_jchar c) with (c mod 65536).
    apply cast_in_range; [reflexivity |].
    unfold in_range, c_char32_t. apply andb_true_intro.
    split; [apply Z.leb_le | apply Z.ltb_lt]; lia. }
  split; [exact Heq |]. rewrite Heq.
  simpl in Hc. unfold in_range, c_char32_t in Hc.
  apply andb_prop in Hc as [Hlo _]. apply Z.leb_le in Hlo.
  split.
  - intros H. inversion H as [Hc']. lia.
  - intros Hle. f_equal. apply Z.mod_small. lia.
Qed.

Lemma roundtrip_char32_t_witness :
  roundtrip (collab := Sim.collab) cpp_char32_t 128512 [] = Ret 62976 /\
  roundtrip (collab := Sim.collab) cpp_char32_t 8364 [] = Ret 8364.
Proof.
  split.
  - exact (proj1 (roundtrip_char32_t (collab := Sim.collab) 128512 [] eq_refl)).
  - apply (proj2 (roundtrip_char32_t (collab := Sim.collab) 8364 [] eq_refl)).
    lia.
Defined.

(** X6: two [char32_t] values convert to the same [jchar] exactly when
    they agree modulo 65536; a value and the value 65536 above it always
    do. *)
Theorem nativeToJava_char32_t_collisions {collab : Collaborators}
    (c1 c2 : Z) (l : list Reference) :
  nval_ok cpp_char32_t c1 = true ->
  nval_ok cpp_char32_t c2 = true ->
  (TypeConversion.nativeToJava cpp_char32_t c1 l
   = TypeConversion.nativeToJava cpp_char32_t c2 l
   <-> c1 mod 65536 = c2 mod 65536) /\
  TypeConversion.nativeToJava cpp_char32_t (c1 + 65536) l
  = TypeConversion.nativeToJava cpp_char32_t c1 l.
Proof.
  intros _ _. simpl. unfold TypeConversion_char32_t.nativeToJava.
  change (cast k_jchar c1) with (c1 mod 65536).
  change (cast k_jchar c2) with (c2 mod 65536).
  change (cast k_jchar (c1 + 65536)) with ((c1 + 65536) mod 65536).
  split; [split |].
  - intros H. inversion H. reflexivity.
  - intros ->. reflexivity.
  - f_equal. f_equal.
    replace (c1 + 65536) with (c1 + 1 * 65536) by lia.
    apply Z.mod_add. lia.
Qed.

Lemma nativeToJava_char32_t_collisions_witness :
  TypeConversion.nativeToJava (collab := Sim.collab) cpp_char32_t
    (62976 + 65536) []
  = TypeConversion.nativeToJava (collab := Sim.collab) cpp_char32_t 62976 [].
Proof.
  exact (proj2 (nativeToJava_char32_t_collisions (collab := Sim.collab)
                  62976 128512 [] eq_refl eq_refl)).
Defined.

(** ** Distinct values stay distinct *)

(** X7: for [int], [short], [double], [float], [int64_t], [int8_t], [bool]
    and [jobject], [nativeToJava] returns different Java values for
    different values of the type, whatever the lists it is called with
    (each call returns its Java value with the list it was given). *)
Theorem nativeToJava_injective {collab : Collaborators}
    (T : native_type) (x y : nval T) (l l' : list Reference) :
  In T [cpp_int; cpp_short; cpp_double; cpp_float; cpp_int64_t; cpp_int8_t;
        cpp_bool; cpp_jobject] ->
  nval_ok T x = true ->
  nval_ok T y = true ->
  x <> y ->
  exists jx jy : jval (TypeConversion.JavaType T),
    TypeConversion.nativeToJava T x l = Ret (jx, l) /\
    TypeConversion.nativeToJava T y l' = Ret (jy, l') /\
    jx <> jy.
Proof.
  intros HT Hx Hy Hne. simpl in HT.
  repeat (destruct HT as [<- | HT]); try contradiction; simpl in *;
    (eexists; eexists; split; [reflexivity |]; split; [reflexivity |]);
    try exact Hne; intros Hv; apply Hne.
  - rewrite !cast_in_range in Hv by (try reflexivity; assumption). exact Hv.
  - rewrite !cast_in_range in Hv by (try reflexivity; assumption). exact Hv.
  - rewrite !cast_in_range in Hv by (try reflexivity; assumption). exact Hv.
  - rewrite !cast_in_range in Hv by (try reflexivity; assumption). exact Hv.
  - destruct x, y; try reflexivity; discriminate Hv.
Qed.

Lemma nativeToJava_injective_witness :
  exists jx jy : Z,
    TypeConversion.nativeToJava (collab := Sim.collab) cpp_int8_t (-128) []
    = Ret (jx, []) /\
    TypeConversion.nativeToJava (collab := Sim.collab) cpp_int8_t 127 [1%N]
    = Ret (jy, [1%N]) /\
    jx <> jy.
Proof.
  apply (nativeToJava_injective (collab := Sim.collab) cpp_int8_t).
  - simpl. tauto.
  - reflexivity.
  - reflexivity.
  - discriminate.
Defined.

(** ** The runtime calls of the conversions *)

Lemma all_calls_calls {collab : Collaborators} {R : Type}
    (Q : forall X, RuntimeE X -> Prop) (p : Prog R) X (ev : RuntimeE X) :
  all_calls Q p -> calls p ev -> Q X ev.
Proof.
  intros Ha Hc. induction Hc as [X ev k | X ev k x Y ev' _ IH];
    simpl in Ha; destruct Ha as [Hq Hk].
  - exact Hq.
  - apply IH, Hk.
Qed.

(** X8: the only call of the runtime a [nativeToJava] can make is
    [_createJString], made by the [std::string] specialisation on the very
    string and list it was given; no [nativeToJava] takes ownership of a
    handle or reads a Java string, and no other specialisation (the
    primary template included) calls the runtime at all. *)
Theorem nativeToJava_runtime_calls {collab : Collaborators}
    (X : Type) (ev : RuntimeE X) :
  (forall s l,
     calls (TypeConversion.nativeToJava std_string s l) ev ->
     is_createJString s l ev) /\
  (forall T v l,
     T <> std_string -> ~ calls (TypeConversion.nativeToJava T v l) ev).
Proof.
  split.
  - intros s l. apply all_calls_calls. simpl. auto.
  - intros T v l Hstr Hc.
    apply (all_calls_calls (fun _ _ => False)) in Hc; [exact Hc |].
    destruct T; simpl; auto.
Qed.

Lemma nativeToJava_runtime_calls_witness :
  calls
    (TypeConversion.nativeToJava (collab := Sim.collab) std_string
       "boden"%string [2%N])
    (CreateJString (collab := Sim.collab) "boden"%string [2%N]) /\
  is_createJString (collab := Sim.collab) "boden"%string [2%N]
    (CreateJString (collab := Sim.collab) "boden"%string [2%N]).
Proof.
  assert (Hc : calls
                 (TypeConversion.nativeToJava (collab := Sim.collab) std_string
                    "boden"%string [2%N])
                 (CreateJString (collab := Sim.collab) "boden"%string [2%N]))
    by apply calls_here.
  split; [exact Hc |].
  exact (proj1 (nativeToJava_runtime_calls (collab := Sim.collab) _ _)
           "boden"%string [2%N] Hc).
Defined.

(** X9: a [takeOwnershipOfJavaValueAndConvertToNative] never creates a
    Java object and never asks for a signature.  The primary template
    calls only [convertAndDestroyOwnedLocal], on its argument; the
    [std::string] specialisation calls that and [_getStringFromJava]; the
    other specialisations make no call. *)
Theorem takeOwnership_runtime_calls {collab : Collaborators}
    (X : Type) (ev : RuntimeE X) :
  (forall cls j,
     calls
       (TypeConversion.takeOwnershipOfJavaValueAndConvertToNative
          (JObject_derived cls) j) ev ->
     is_convertAndDestroy j ev) /\
  (forall j,
     calls
       (TypeConversion.takeOwnershipOfJavaValueAndConvertToNative
          std_string j) ev ->
     is_convert_or_getString j ev) /\
  (forall T j,
     T <> std_string -> (forall cls, T <> JObject_derived cls) ->
     ~ calls
         (TypeConversion.takeOwnershipOfJavaValueAndConvertToNative T j) ev).
Proof.
  split; [| split].
  - intros cls j. apply all_calls_calls. simpl. auto.
  - intros j. apply all_calls_calls. simpl. auto.
  - intros T j Hstr Hprim Hc.
    apply (all_calls_calls (fun _ _ => False)) in Hc; [exact Hc |].
    destruct T; simpl; auto;
      exfalso; first [apply Hstr; reflexivity | eapply Hprim; reflexivity].
Qed.

Lemma takeOwnership_runtime_calls_witness :
  is_convertAndDestroy (collab := Sim.collab) 5%N
    (ConvertAndDestroyOwnedLocal (collab := Sim.collab) 5%N).
Proof.
  apply (proj1 (takeOwnership_runtime_calls (collab := Sim.collab) _ _)
           "java/lang/Thread"%string 5%N).
  apply calls_here.
Defined.

(** X10: taking ownership comes first and its failure is the failure of
    the conversion: when [convertAndDestroyOwnedLocal] fails, the
    [std::string] conversion fails with the same error in the state that
    call left, without reading a string, and the primary template builds
    no wrapper; when it succeeds, the string is read from, and the
    wrapper built on, the reference it returned. *)
Theorem takeOwnership_sequence {collab : Collaborators} {RT : Type}
    (h : Handler RT) (j : objref) (rt : RT) :
  run h (TypeConversion.takeOwnershipOfJavaValueAndConvertToNative std_string j)
    rt
  = match h _ (ConvertAndDestroyOwnedLocal j) rt with
    | (inl e, rt1) => (inl e, rt1)
    | (inr ref, rt1) => h _ (GetStringFromJava ref) rt1
    end /\
  forall cls,
    run h
      (TypeConversion.takeOwnershipOfJavaValueAndConvertToNative
         (JObject_derived cls) j) rt
    = match h _ (ConvertAndDestroyOwnedLocal j) rt with
      | (inl e, rt1) => (inl e, rt1)
      | (inr ref, rt1) => (inr (construct cls ref), rt1)
      end.
Proof.
  split; [| intros cls]; simpl;
    destruct (h _ (ConvertAndDestroyOwnedLocal j) rt) as [[e | ref] rt1];
    try reflexivity.
  simpl. destruct (h _ (GetStringFromJava ref) rt1) as [[e | s] rt2];
    reflexivity.
Qed.

(** ** The signature statics *)

Lemma run_getJavaSignature_primary_first {collab : Collaborators} {RT : Type}
    (h : Handler RT) (cls : string) :
  forall st rt s st' rt',
    sig_cell st (JObject_derived cls) = None ->
    run h (TypeConversion.getJavaSignature (JObject_derived cls) st) rt
    = (inr (s, st'), rt') ->
    h _ (GetSignature cls) rt = (inr s, rt').
Proof.
  intros st rt s st' rt' Hnone.
  unfold TypeConversion.getJavaSignature. simpl.
  unfold TypeConversion_primary.getJavaSignature. rewrite Hnone. simpl.
  destruct (h _ (GetSignature cls) rt) as [[e | s0] rt0]; simpl;
    intros H; inversion H; reflexivity.
Qed.

(** X11: once a [getJavaSignature] of a type has completed, every later
    call for that type, after any number of calls for any types, returns
    the same string without a call of the runtime: it cannot fail any
    more, also for a wrapper class whose first call asked the runtime. *)
Theorem getJavaSignature_cached {collab : Collaborators} {RT : Type}
    (h : Handler RT) (T : native_type)
    (st0 st1 st2 : Statics) (rt0 rt1 : RT) (s : string) :
  run h (TypeConversion.getJavaSignature T st0) rt0 = (inr (s, st1), rt1) ->
  sig_steps h st1 st2 ->
  TypeConversion.getJavaSignature T st2
  = Ret (s, set_sig_cell st2 T (Some s)).
Proof.
  intros Hrun Hsteps.
  apply run_getJavaSignature in Hrun as (-> & _).
  assert (Hc : sig_cell st2 T = Some s).
  { eapply sig_steps_keeps_cell; [exact Hsteps | apply sig_cell_set_same]. }
  unfold TypeConversion.getJavaSignature.
  destruct (getJavaSignature_cell_static T) as [init Hinit].
  rewrite Hinit, Hc. reflexivity.
Qed.

Lemma getJavaSignature_cached_witness :
  run Sim.broken
    (TypeConversion.getJavaSignature (collab := Sim.collab)
       (JObject_derived "java/lang/Thread") Sim.after_int_and_Thread)
    Sim.boot
  = (inr ("Ljava/lang/Thread;"%string,
          set_sig_cell Sim.after_int_and_Thread
            (JObject_derived "java/lang/Thread")
            (Some "Ljava/lang/Thread;"%string)),
     Sim.boot).
Proof.
  rewrite (getJavaSignature_cached (collab := Sim.collab) Sim.handler
             (JObject_derived "java/lang/Thread")
             Sim.after_int Sim.after_int_and_Thread Sim.after_int_and_Thread
             Sim.boot Sim.boot "Ljava/lang/Thread;"%string
             eq_refl (sig_steps_refl _ _)).
  reflexivity.
Defined.

(** X12: a completed [getJavaSignature] of a type leaves its string in
    the static of that type and leaves the static of every other type,
    and that of [void], as it was; a completed call for [void] leaves the
    static of every type as it was. *)
Theorem getJavaSignature_frame {collab : Collaborators} {RT : Type}
    (h : Handler RT) (T : native_type) (st st' : Statics) (rt rt' : RT)
    (s : string) :
  run h (TypeConversion.getJavaSignature T st) rt = (inr (s, st'), rt') ->
  sig_cell st' T = Some s /\
  (forall T', T' <> T -> sig_cell st' T' = sig_cell st T') /\
  sig_cell_void st' = sig_cell_void st /\
  (forall stv rtv sv stv' rtv',
     run h (TypeConversion.getJavaSignature_void stv) rtv
     = (inr (sv, stv'), rtv') ->
     sig_cell_void stv' = Some sv /\
     forall T', sig_cell stv' T' = sig_cell stv T').
Proof.
  intros Hrun. apply run_getJavaSignature in Hrun as (-> & _).
  split; [apply sig_cell_set_same |]. split; [| split].
  - intros T' Hne. apply sig_cell_set_other. congruence.
  - reflexivity.
  - intros stv rtv sv stv' rtv' Hv.
    apply run_getJavaSignature_void in Hv as (-> & _).
    split; [reflexivity | intros T'; reflexivity].
Qed.

Lemma getJavaSignature_frame_witness :
  sig_cell Sim.after_int_and_Thread (JObject_derived "java/lang/Thread")
  = Some "Ljava/lang/Thread;"%string /\
  sig_cell Sim.after_int_and_Thread cpp_int = sig_cell Sim.after_int cpp_int.
Proof.
  destruct (getJavaSignature_frame (collab := Sim.collab) Sim.handler
              (JObject_derived "java/lang/Thread")
              Sim.after_int Sim.after_int_and_Thread Sim.boot Sim.boot
              "Ljava/lang/Thread;"%string eq_refl) as (Hself & Hother & _).
  split; [exact Hself |]. apply Hother. discriminate.
Defined.

Lemma sig_steps_primary_answer {collab : Collaborators} {RT : Type}
    (h : Handler RT) (st0 st : Statics) :
  sig_steps h st0 st ->
  (forall cls s, sig_cell st0 (JObject_derived cls) = Some s ->
     exists rt rt', h _ (GetSignature cls) rt = (inr s, rt')) ->
  forall cls s, sig_cell st (JObject_derived cls) = Some s ->
    exists rt rt', h _ (GetSignature cls) rt = (inr s, rt').
Proof.
  induction 1 as [| st0 st1 st2 _ IH Hstep]; intros H0; [exact H0 |].
  specialize (IH H0). intros cls s Hc.
  destruct Hstep as [T st1 rt s0 st2 rt' Hrun | st1 rt s0 st2 rt' Hrun].
  - pose proof Hrun as Hrun'.
    apply run_getJavaSignature in Hrun as (-> & Hsome & _).
    destruct (native_type_eq_dec T (JObject_derived cls)) as [-> | Hne].
    + rewrite sig_cell_set_same in Hc. inversion Hc; subst s0.
      destruct (sig_cell st1 (JObject_derived cls)) as [s1 |] eqn:Hc1.
      * apply (IH cls s). rewrite Hc1. f_equal. apply Hsome. reflexivity.
      * exists rt, rt'.
        eapply run_getJavaSignature_primary_first; [exact Hc1 | exact Hrun'].
    + rewrite sig_cell_set_other in Hc by exact Hne. apply (IH cls s Hc).
  - apply run_getJavaSignature_void in Hrun as (-> & _). apply (IH cls s Hc).
Qed.

(** X13: in every statics the process can reach, the string held for a
    wrapper class is one the runtime answered to
    [getStaticClass_().getSignature_()] of that class: it is fetched
    there and nowhere else. *)
Theorem primary_signature_from_runtime {collab : Collaborators} {RT : Type}
    (h : Handler RT) (st : Statics) (cls : string) (s : string) :
  reachable h st ->
  sig_cell st (JObject_derived cls) = Some s ->
  exists rt rt', h _ (GetSignature cls) rt = (inr s, rt').
Proof.
  intros Hreach. apply (sig_steps_primary_answer h statics_init st Hreach).
  intros cls0 s0 H0. discriminate H0.
Qed.

Lemma Sim_after_int_and_Thread_reachable :
  reachable Sim.handler Sim.after_int_and_Thread.
Proof.
  apply sig_steps_step with (st' := Sim.after_int).
  - apply sig_steps_step with (st' := statics_init).
    + apply sig_steps_refl.
    + apply sig_step_type
        with (T := cpp_int) (rt := Sim.boot) (s := "I"%string)
             (rt' := Sim.boot).
      reflexivity.
  - apply sig_step_type
      with (T := JObject_derived "java/lang/Thread") (rt := Sim.boot)
           (s := "Ljava/lang/Thread;"%string) (rt' := Sim.boot).
    reflexivity.
Qed.

Lemma primary_signature_from_runtime_witness :
  exists rt rt',
    Sim.handler (GetSignature (collab := Sim.collab) "java/lang/Thread") rt
    = (inr "Ljava/lang/Thread;"%string, rt').
Proof.
  apply (primary_signature_from_runtime (collab := Sim.collab) Sim.handler
           Sim.after_int_and_Thread "java/lang/Thread"
           "Ljava/lang/Thread;"%string).
  - exact Sim_after_int_and_Thread_reachable.
  - reflexivity.
Defined.

(** ** The free functions, composed *)

(** X14: through the free functions too, a value of [int], [short],
    [double], [float], [int64_t], [int8_t], [bool] or [jobject] converted
    to Java and back is the value again, and the conversion to Java
    hands back the list it was given. *)
Theorem free_roundtrip_identity {collab : Collaborators}
    (T : native_type) (x : nval T) (l : list Reference) :
  In T [cpp_int; cpp_short; cpp_double; cpp_float; cpp_int64_t; cpp_int8_t;
        cpp_bool; cpp_jobject] ->
  nval_ok T x = true ->
  (exists java, nativeToJava T x l = Ret (java, l)) /\
  (r <- nativeToJava T x l ;;
   takeOwnershipOfJavaValueAndConvertToNative T (fst r))
  = Ret x.
Proof.
  intros HT Hx. simpl in HT.
  repeat (destruct HT as [<- | HT]); try contradiction;
    (split; [eexists; reflexivity |]);
    unfold nativeToJava, takeOwnershipOfJavaValueAndConvertToNative;
    simpl in *; try reflexivity.
  - unfold TypeConversion_int.takeOwnershipOfJavaValueAndConvertToNative.
    cast_id. reflexivity.
  - unfold TypeConversion_short.takeOwnershipOfJavaValueAndConvertToNative.
    cast_id. reflexivity.
  - unfold TypeConversion_int64_t.takeOwnershipOfJavaValueAndConvertToNative.
    cast_id. reflexivity.
  - unfold TypeConversion_int8_t.takeOwnershipOfJavaValueAndConvertToNative.
    cast_id. reflexivity.
  - destruct x; reflexivity.
Qed.

Lemma free_roundtrip_identity_witness :
  (r <- nativeToJava (collab := Sim.collab) cpp_short (-32768) [7%N] ;;
   takeOwnershipOfJavaValueAndConvertToNative (collab := Sim.collab)
     cpp_short (fst r))
  = Ret (-32768).
Proof.
  refine (proj2 (free_roundtrip_identity (collab := Sim.collab) cpp_short
                   (-32768) [7%N] _ eq_refl)).
  simpl. tauto.
Defined.
